(** * update-icon.py: the Tauri icon generator

    A shallow embedding of [server/hostapp/src-tauri/icons/update-icon.py].
    The script probes the filesystem once, then shells out to [sips] once per
    entry of a fixed size table, printing a line after each call and stopping
    at the first non-zero exit status.

    Everything outside the script (the filesystem, the [sips] binary and the
    encoding of standard output) is a [Platform]: an arbitrary world type
    with the library calls the script makes.  A run returns what the script
    returned or raised, the events it caused in order, and the world it left
    behind. *)

From Stdlib Require Import String Ascii List ZArith Bool Lia DecimalString.
Import ListNotations.
Local Open Scope string_scope.
Local Open Scope Z_scope.

(** ** Python values *)

(** [subprocess.CompletedProcess] as produced by
    [subprocess.run(cmd, capture_output=True, text=True)]. *)
Record CompletedProcess : Type := mkCompleted {
  returncode : Z;
  stdout : string;
  stderr : string
}.

(** What [subprocess.run] raises when the child cannot be started
    (e.g. [FileNotFoundError] when there is no [sips] on the PATH). *)
Record OSError : Type := mkOSError { strerror : string }.

(** The exceptions that can cross the script. *)
Inductive exn : Type :=
| SystemExit (code : Z)
| IndexError
| OSFailure (e : OSError)
| UnicodeEncodeError.

(** [str(n)] for a Python [int]. *)
Definition str (n : Z) : string := NilZero.string_of_int (Z.to_int n).

(** ** The outside world *)

Class Platform : Type := {
  World : Type;
  (** [os.path.exists(path)] *)
  os_path_exists : string -> World -> bool;
  (** [subprocess.run(cmd, capture_output=True, text=True)]: either the
      child's completed process or the error raised on spawning it, and the
      world after the call. *)
  subprocess_run : list string -> World -> (OSError + CompletedProcess) * World;
  (** Whether the encoding of [sys.stdout] has a code for every character of
      a text that is not plain ASCII. *)
  stdout_encodes : string -> bool
}.

(** Observable actions of a run, in program order. *)
Inductive Event : Type :=
| PathExists (path : string) (answer : bool)
| Subprocess (cmd : list string) (result : OSError + CompletedProcess)
| Stdout (line : string).

(** The commands handed to [subprocess.run]. *)
Fixpoint invocations (evs : list Event) : list (list string) :=
  match evs with
  | [] => []
  | Subprocess cmd _ :: rest => cmd :: invocations rest
  | _ :: rest => invocations rest
  end.

(** The arguments of all [print] calls. *)
Fixpoint stdout_lines (evs : list Event) : list string :=
  match evs with
  | [] => []
  | Stdout l :: rest => l :: stdout_lines rest
  | _ :: rest => stdout_lines rest
  end.

(** What [subprocess.run] answered, call by call. *)
Fixpoint results (evs : list Event) : list (OSError + CompletedProcess) :=
  match evs with
  | [] => []
  | Subprocess _ res :: rest => res :: results rest
  | _ :: rest => results rest
  end.

(** The paths given to [os.path.exists]. *)
Fixpoint probes (evs : list Event) : list string :=
  match evs with
  | [] => []
  | PathExists p _ :: rest => p :: probes rest
  | _ :: rest => probes rest
  end.

(** ** The script monad: state, event log and exceptions *)

Section Script.
Context {P : Platform}.

Record Run (A : Type) : Type := mkRun {
  outcome : exn + A;
  events : list Event;
  final : World
}.
Arguments mkRun {A} _ _ _.
Arguments outcome {A} _.
Arguments events {A} _.
Arguments final {A} _.

Definition M (A : Type) : Type := World -> Run A.

Definition ret {A} (a : A) : M A := fun w => mkRun (inr a) [] w.

Definition raise {A} (e : exn) : M A := fun w => mkRun (inl e) [] w.

Definition bind {A B} (m : M A) (k : A -> M B) : M B :=
  fun w =>
    let r := m w in
    match outcome r with
    | inl e => mkRun (inl e) (events r) (final r)
    | inr a =>
        let r' := k a (final r) in
        mkRun (outcome r') (events r ++ events r') (final r')
    end.

Notation "x <- m ;; k" := (bind m (fun x => k))
  (at level 61, m at next level, right associativity).
Notation "m ;; k" := (bind m (fun _ => k))
  (at level 61, right associativity).

(** Text made of ASCII characters only: no byte has its top bit set. *)
Fixpoint is_ascii (s : string) : bool :=
  match s with
  | EmptyString => true
  | String (Ascii _ _ _ _ _ _ _ b7) rest => negb b7 && is_ascii rest
  end.

(** Standard output can encode the text: ASCII text always, other text when
    the encoding of [sys.stdout] allows it. *)
Definition encodable (line : string) : bool :=
  is_ascii line || stdout_encodes line.

(** [print(line)]: one event per call, the trailing newline left implicit.
    When standard output cannot encode the line, [print] raises
    [UnicodeEncodeError] and writes nothing.  Errors of the stream itself
    (a closed pipe) are outside the model. *)
Definition print (line : string) : M unit :=
  fun w =>
    if encodable line then mkRun (inr tt) [Stdout line] w
    else mkRun (inl UnicodeEncodeError) [] w.

(** [sys.exit(code)] *)
Definition sys_exit {A} (code : Z) : M A := raise (SystemExit code).

(** [os.path.exists(path)] *)
Definition path_exists (path : string) : M bool :=
  fun w =>
    let b := os_path_exists path w in
    mkRun (inr b) [PathExists path b] w.

(** [subprocess.run(cmd, capture_output=True, text=True)] *)
Definition run (cmd : list string) : M CompletedProcess :=
  fun w =>
    let '(res, w') := subprocess_run cmd w in
    mkRun (match res with
           | inl e => inl (OSFailure e)
           | inr cp => inr cp
           end) [Subprocess cmd res] w'.

(** ** The script *)

(** One row of [sizes]: [(width, height, output)]. *)
Definition IconSpec : Type := (Z * Z * string)%type.

Definition sizes : list IconSpec :=
  [ (512, 512, "icon.png");
    (256, 256, "128x128@2x.png");
    (128, 128, "128x128.png");
    (32, 32, "32x32.png") ].

(** U+2713 CHECK MARK as it is written to standard output (UTF-8). *)
Definition check_mark : string :=
  String (ascii_of_nat 226) (String (ascii_of_nat 156)
    (String (ascii_of_nat 147) EmptyString)).

(** The argument vector built at line 29. *)
Definition sips_cmd (source_file : string) (spec : IconSpec) : list string :=
  let '(width, height, output) := spec in
  ["sips"; "-z"; str height; str width; source_file; "--out"; output].

(** The [for] loop of lines 28-36 followed by the [return True] of line 38:
    an empty remainder of the table falls through to [return True]. *)
Fixpoint generate_loop (source_file : string) (todo : list IconSpec) : M bool :=
  match todo with
  | [] => ret true
  | (width, height, output) :: rest =>
      let cmd := sips_cmd source_file (width, height, output) in
      result <- run cmd ;;
      if negb (returncode result =? 0) then
        print ("Error generating " ++ output ++ ": " ++ stderr result) ;;
        ret false
      else
        print (check_mark ++ " Generated " ++ output
                 ++ " (" ++ str width ++ "x" ++ str height ++ ")") ;;
        generate_loop source_file rest
  end.

Definition generate_icons (source_file : string) : M bool :=
  ex <- path_exists source_file ;;
  if negb ex then
    print ("Error: Source file '" ++ source_file ++ "' not found") ;;
    ret false
  else
    print ("Generating icons from " ++ source_file ++ "...") ;;
    generate_loop source_file sizes.

(** [sys.argv[i]] *)
Definition argv_get (argv : list string) (i : nat) : M string :=
  match nth_error argv i with
  | Some s => ret s
  | None => raise IndexError
  end.

Definition newline : string := String (ascii_of_nat 10) EmptyString.

(** The [if __name__ == "__main__":] block, lines 40-53. *)
Definition main (argv : list string) : M unit :=
  (if negb (Nat.eqb (length argv) 2) then
     print "Usage: python3 update-icon.py <source-icon-file>" ;;
     print "Source icon should be at least 512x512 pixels" ;;
     sys_exit 1
   else ret tt) ;;
  source <- argv_get argv 1 ;;
  ok <- generate_icons source ;;
  if ok then
    print (newline ++ "Icon generation complete!") ;;
    print "The Tauri app will use the new icons on next build."
  else
    print (newline ++ "Icon generation failed!") ;;
    sys_exit 1.

(** The status the interpreter process ends with: 0 when the module body runs
    to its end, the code of an uncaught [SystemExit], and 1 for any other
    uncaught exception. *)
Definition exit_status {A} (r : Run A) : Z :=
  match outcome r with
  | inr _ => 0
  | inl (SystemExit code) => code
  | inl _ => 1
  end.

End Script.

Arguments mkRun {P A} _ _ _.
Arguments outcome {P A} _.
Arguments events {P A} _.
Arguments final {P A} _.

(** ** Vocabulary for statements about the tool *)

(** An invocation succeeded: the child was started and returned status 0. *)
Definition succeeded (res : OSError + CompletedProcess) : bool :=
  match res with
  | inr cp => returncode cp =? 0
  | inl _ => false
  end.

(** What the tool answers on each entry of [todo] when it is called on them
    one after the other from world [w]. *)
Fixpoint tool_outcomes {P : Platform} (source_file : string)
    (todo : list IconSpec) (w : World) : list (OSError + CompletedProcess) :=
  match todo with
  | [] => []
  | spec :: rest =>
      let '(res, w') := subprocess_run (sips_cmd source_file spec) w in
      res :: tool_outcomes source_file rest w'
  end.

Definition output_of (spec : IconSpec) : string := snd spec.
Definition width_of (spec : IconSpec) : Z := fst (fst spec).
Definition height_of (spec : IconSpec) : Z := snd (fst spec).

(** The line printed after a successful resize of [spec]. *)
Definition generated_line (spec : IconSpec) : string :=
  check_mark ++ " Generated " ++ output_of spec
    ++ " (" ++ str (width_of spec) ++ "x" ++ str (height_of spec) ++ ")".

(** The line printed after a failed resize of [spec]. *)
Definition error_line (spec : IconSpec) (cp : CompletedProcess) : string :=
  "Error generating " ++ output_of spec ++ ": " ++ stderr cp.



(** The child was started and ran to its end, with whatever status. *)
Definition completed (res : OSError + CompletedProcess) : bool :=
  match res with
  | inr _ => true
  | inl _ => false
  end.

(** The two closing messages of the command line. *)
Definition complete_line : string := newline ++ "Icon generation complete!".
Definition failed_line : string := newline ++ "Icon generation failed!".
Definition next_build_line : string :=
  "The Tauri app will use the new icons on next build.".

Definition source_arg (cmd : list string) : string := nth 4 cmd "".


(** The two headline messages of [generate_icons]. *)
Definition not_found_line (source_file : string) : string :=
  "Error: Source file '" ++ source_file ++ "' not found".
Definition generating_line (source_file : string) : string :=
  "Generating icons from " ++ source_file ++ "...".


(** ** A small concrete platform

    Files are an association list from path to contents, newest binding
    first.  The stand-in for [sips] refuses the destinations listed in
    [broken] and otherwise writes a resized copy of the source. *)
Module Demo.

Definition Files : Type := list (string * string).

Fixpoint read (path : string) (fs : Files) : option string :=
  match fs with
  | [] => None
  | (p, c) :: rest => if String.eqb p path then Some c else read path rest
  end.

Definition exists_file (path : string) (fs : Files) : bool :=
  match read path fs with Some _ => true | None => false end.

Definition sips (broken : list string) (cmd : list string) (fs : Files)
  : (OSError + CompletedProcess) * Files :=
  match cmd with
  | [_; _; h; w; src; _; out] =>
      if existsb (String.eqb out) broken then
        (inr (mkCompleted 1 "" ("Error 13: cannot write " ++ out)), fs)
      else
        match read src fs with
        | Some c =>
            (inr (mkCompleted 0 (src ++ " -> " ++ out) ""),
             (out, h ++ "x" ++ w ++ " of " ++ c) :: fs)
        | None =>
            (inr (mkCompleted 1 "" ("Error 2: cannot read " ++ src)), fs)
        end
  | _ => (inl (mkOSError "usage"), fs)
  end.

(** Standard output encodes everything (UTF-8). *)
Definition platform (broken : list string) : Platform :=
  {| World := Files;
     os_path_exists := exists_file;
     subprocess_run := sips broken;
     stdout_encodes := fun _ => true |}.

(** The same machine with an ASCII-only standard output. *)
Definition ascii_platform (broken : list string) : Platform :=
  {| World := Files;
     os_path_exists := exists_file;
     subprocess_run := sips broken;
     stdout_encodes := fun _ => false |}.




Definition disk : Files := [("logo.png", "LOGO")].


End Demo.

Example str_512 : str 512 = "512".
Proof. reflexivity. Qed.

Example demo_all_good :
  outcome (generate_icons (P := Demo.platform []) "logo.png" Demo.disk) = inr true.
Proof. reflexivity. Qed.

Example demo_second_fails :
  let r := generate_icons (P := Demo.platform ["128x128@2x.png"]) "logo.png" Demo.disk in
  outcome r = inr false /\ length (invocations (events r)) = 2%nat.
Proof. split; reflexivity. Qed.

Example demo_source_overwritten :
  let r := generate_icons (P := Demo.platform []) "icon.png" [("icon.png", "LOGO")] in
  outcome r = inr true
  /\ Demo.read "icon.png" (final r) = Some "512x512 of LOGO"
  /\ Demo.read "32x32.png" (final r) = Some "32x32 of 512x512 of LOGO".
Proof. repeat split. Qed.

Example demo_no_arguments :
  exit_status (main (P := Demo.platform []) ["update-icon.py"] Demo.disk) = 1.
Proof. reflexivity. Qed.

Example demo_ascii_stdout :
  let r := main (P := Demo.ascii_platform []) ["update-icon.py"; "logo.png"]
             Demo.disk in
  outcome r = inl UnicodeEncodeError
  /\ exit_status r = 1
  /\ length (invocations (events r)) = 1%nat
  /\ stdout_lines (events r) = ["Generating icons from logo.png..."].
Proof. repeat split. Qed.

(** ** One step of the monad *)

Section Steps.
Context {P : Platform}.

Lemma bind_print {A : Type} (line : string) (k : unit -> M A) (w : World) :
  bind (print line) k w =
  if encodable line then
    let r := k tt w in
    mkRun (outcome r) (Stdout line :: events r) (final r)
  else mkRun (inl UnicodeEncodeError) [] w.
Proof.
  unfold bind, print. destruct (encodable line); reflexivity.
Qed.

Lemma bind_run {A : Type} (cmd : list string) (k : CompletedProcess -> M A)
    (w : World) :
  bind (run cmd) k w =
  let res := fst (subprocess_run cmd w) in
  let w' := snd (subprocess_run cmd w) in
  match res with
  | inl e => mkRun (inl (OSFailure e)) [Subprocess cmd res] w'
  | inr cp =>
      let r := k cp w' in
      mkRun (outcome r) (Subprocess cmd res :: events r) (final r)
  end.
Proof.
  unfold bind, run.
  destruct (subprocess_run cmd w) as [[e|cp] w']; reflexivity.
Qed.

Lemma bind_ret_l {A B : Type} (a : A) (k : A -> M B) (w : World) :
  bind (ret a) k w = k a w.
Proof.
  unfold bind, ret. cbn. destruct (k a w); reflexivity.
Qed.

(** Plain ASCII text is printed whatever the encoding. *)
Lemma encodable_ascii (line : string) :
  is_ascii line = true -> encodable line = true.
Proof. intros H. unfold encodable. rewrite H. reflexivity. Qed.

End Steps.

(** ** One turn of the loop *)

Section Loop.
Context {P : Platform}.
Variable source_file : string.

(** The body of the loop, spelled out on the tool's answer and on whether
    the line to print can be encoded. *)
Lemma generate_loop_cons (spec : IconSpec) (rest : list IconSpec) (w : World) :
  generate_loop source_file (spec :: rest) w =
  let cmd := sips_cmd source_file spec in
  let res := fst (subprocess_run cmd w) in
  let w' := snd (subprocess_run cmd w) in
  match res with
  | inl e => mkRun (inl (OSFailure e)) [Subprocess cmd res] w'
  | inr cp =>
      if returncode cp =? 0 then
        if encodable (generated_line spec) then
          let r := generate_loop source_file rest w' in
          mkRun (outcome r)
                (Subprocess cmd res :: Stdout (generated_line spec) :: events r)
                (final r)
        else mkRun (inl UnicodeEncodeError) [Subprocess cmd res] w'
      else
        if encodable (error_line spec cp) then
          mkRun (inr false) [Subprocess cmd res; Stdout (error_line spec cp)] w'
        else mkRun (inl UnicodeEncodeError) [Subprocess cmd res] w'
  end.
Proof.
  destruct spec as [[width height] output].
  unfold generated_line, error_line, output_of, width_of, height_of.
  cbn [generate_loop fst snd]. rewrite bind_run. cbv zeta.
  destruct (fst (subprocess_run (sips_cmd source_file (width, height, output)) w))
    as [e|cp]; [reflexivity|].
  destruct (returncode cp =? 0); cbn [negb]; rewrite bind_print;
    match goal with |- context [encodable ?l] => destruct (encodable l) end;
    reflexivity.
Qed.

Lemma tool_outcomes_cons (spec : IconSpec) (rest : list IconSpec) (w : World) :
  tool_outcomes source_file (spec :: rest) w =
  fst (subprocess_run (sips_cmd source_file spec) w)
    :: tool_outcomes source_file rest
         (snd (subprocess_run (sips_cmd source_file spec) w)).
Proof.
  cbn [tool_outcomes].
  destruct (subprocess_run (sips_cmd source_file spec) w); reflexivity.
Qed.

(** Case analysis on one turn of the loop. *)
Ltac loop_step w :=
  rewrite generate_loop_cons; cbv zeta;
  let cp := fresh "cp" in
  let Hz := fresh "Hz" in
  let Henc := fresh "Henc" in
  destruct (fst (subprocess_run _ w)) as [?e|cp];
  [ | destruct (returncode cp =? 0) eqn:Hz;
      [ destruct (encodable (generated_line _)) eqn:Henc
      | destruct (encodable (error_line _ cp)) eqn:Henc ] ].

(** The loop never probes the filesystem itself. *)
Lemma generate_loop_probes (todo : list IconSpec) (w : World) :
  probes (events (generate_loop source_file todo w)) = [].
Proof.
  revert w; induction todo as [|spec rest IH]; intros w.
  - reflexivity.
  - loop_step w; cbn; try reflexivity. apply IH.
Qed.



(** Whatever the tool and standard output do, the commands issued follow
    the table in order. *)
Lemma generate_loop_prefix (todo : list IconSpec) (w : World) :
  exists n : nat,
    invocations (events (generate_loop source_file todo w))
    = map (sips_cmd source_file) (firstn n todo).
Proof.
  revert w; induction todo as [|spec rest IH]; intros w.
  - exists 0%nat. reflexivity.
  - loop_step w; try (exists 1%nat; reflexivity).
    destruct (IH (snd (subprocess_run (sips_cmd source_file spec) w)))
      as [n Hn].
    exists (S n). cbn. rewrite Hn. reflexivity.
Qed.



(** The answers a run receives are the first ones of [tool_outcomes]: the
    hypotheses stated on [tool_outcomes] speak of the calls the run makes. *)
Lemma generate_loop_results (todo : list IconSpec) (w : World) :
  let rs := results (events (generate_loop source_file todo w)) in
  rs = firstn (length rs) (tool_outcomes source_file todo w).
Proof.
  revert w; induction todo as [|spec rest IH]; intros w.
  - reflexivity.
  - cbv zeta. rewrite tool_outcomes_cons.
    loop_step w; try reflexivity.
    cbn [events results length firstn]. f_equal. apply IH.
Qed.


End Loop.

(** ** The whole of [generate_icons] *)

Section Generate.
Context {P : Platform}.

(** [generate_icons] spelled out on the answer of the existence probe and on
    whether its first line can be encoded. *)
Lemma generate_icons_eq (source_file : string) (w : World) :
  generate_icons source_file w =
  if os_path_exists source_file w then
    if encodable (generating_line source_file) then
      let r := generate_loop source_file sizes w in
      mkRun (outcome r)
            (PathExists source_file true
               :: Stdout (generating_line source_file) :: events r)
            (final r)
    else mkRun (inl UnicodeEncodeError) [PathExists source_file true] w
  else
    if encodable (not_found_line source_file) then
      mkRun (inr false)
            [PathExists source_file false; Stdout (not_found_line source_file)] w
    else mkRun (inl UnicodeEncodeError) [PathExists source_file false] w.
Proof.
  unfold generate_icons, generating_line, not_found_line.
  unfold bind at 1. unfold path_exists. cbn [outcome events final].
  destruct (os_path_exists source_file w); cbn [negb]; rewrite bind_print;
    match goal with |- context [encodable ?l] => destruct (encodable l) end;
    reflexivity.
Qed.


(** Every run starts with the existence probe, and makes no other. *)
Lemma generate_icons_probes (source_file : string) (w : World) :
  probes (events (generate_icons source_file w)) = [source_file].
Proof.
  rewrite generate_icons_eq.
  destruct (os_path_exists source_file w).
  - destruct (encodable (generating_line source_file)); [|reflexivity].
    cbv zeta. cbn [events probes]. rewrite generate_loop_probes. reflexivity.
  - destruct (encodable (not_found_line source_file)); reflexivity.
Qed.

(** The commands of a run are those of an initial segment of the table. *)
Lemma generate_icons_prefix (source_file : string) (w : World) :
  exists n : nat,
    invocations (events (generate_icons source_file w))
    = map (sips_cmd source_file) (firstn n sizes).
Proof.
  rewrite generate_icons_eq.
  destruct (os_path_exists source_file w).
  - destruct (encodable (generating_line source_file)).
    + cbv zeta. cbn [events invocations]. apply generate_loop_prefix.
    + exists 0%nat. reflexivity.
  - exists 0%nat. destruct (encodable (not_found_line source_file)); reflexivity.
Qed.

End Generate.


(** ** The command line *)

Section Main.
Context {P : Platform}.


(** With the program name and one argument, the script runs
    [generate_icons] on that argument and maps its answer. *)
Lemma main_one_argument (prog source : string) (w : World) :
  main [prog; source] w =
  let g := generate_icons source w in
  match outcome g with
  | inl e => mkRun (inl e) (events g) (final g)
  | inr true =>
      mkRun (inr tt)
        (events g ++
           [ Stdout (newline ++ "Icon generation complete!");
             Stdout "The Tauri app will use the new icons on next build." ])%list
        (final g)
  | inr false =>
      mkRun (inl (SystemExit 1))
        (events g ++ [ Stdout (newline ++ "Icon generation failed!") ])%list
        (final g)
  end.
Proof.
  unfold main. cbn [length Nat.eqb negb argv_get nth_error].
  rewrite !bind_ret_l. unfold bind at 1. cbv zeta.
  destruct (outcome (generate_icons source w)) as [e|[|]]; [reflexivity| |].
  - rewrite bind_print, encodable_ascii by reflexivity. cbv zeta.
    unfold print. rewrite encodable_ascii by reflexivity. reflexivity.
  - rewrite bind_print, encodable_ascii by reflexivity. reflexivity.
Qed.



End Main.

(** ** Facts about the size table *)


Lemma sizes_outputs_nodup : NoDup (map output_of sizes).
Proof.
  cbn. repeat constructor; cbn; intuition discriminate.
Qed.


Lemma source_arg_sips_cmd (source_file : string) (spec : IconSpec) :
  source_arg (sips_cmd source_file spec) = source_file.
Proof. destruct spec as [[width height] output]. reflexivity. Qed.





(** ** The claims *)




















(** C9. The size table is not empty, its output file names are pairwise
    distinct and all its widths and heights are positive.  It is a constant:
    in every world and for every source, the commands a run issues are those
    of an initial segment of this same table. *)
Theorem sizes_invariant :
  sizes <> []
  /\ NoDup (map output_of sizes)
  /\ Forall (fun spec => 0 < width_of spec /\ 0 < height_of spec) sizes
  /\ (forall (P : Platform) (source_file : string) (w : World),
        exists n : nat,
          invocations (events (generate_icons source_file w))
          = map (sips_cmd source_file) (firstn n sizes)).
Proof.
  split; [discriminate|].
  split; [exact sizes_outputs_nodup|].
  split.
  - unfold sizes. repeat constructor.
  - intros P source_file w. apply generate_icons_prefix.
Qed.




(** ** Further properties of the script *)

(** *** Projections of a concatenated event log *)

Lemma invocations_app (a b : list Event) :
  invocations (a ++ b)%list = (invocations a ++ invocations b)%list.
Proof.
  induction a as [|[p ans|cmd res|l] a IH]; cbn; try rewrite IH; reflexivity.
Qed.


Lemma probes_app (a b : list Event) :
  probes (a ++ b)%list = (probes a ++ probes b)%list.
Proof.
  induction a as [|[p ans|cmd res|l] a IH]; cbn; try rewrite IH; reflexivity.
Qed.

(** *** More about the loop *)

Section LoopMore.
Context {P : Platform}.
Variable source_file : string.

(** The loop answers [True] only after a status 0 from every entry. *)
Lemma generate_loop_true_inv (todo : list IconSpec) :
  forall w : World,
  outcome (generate_loop source_file todo w) = inr true ->
  forallb succeeded (tool_outcomes source_file todo w) = true
  /\ results (events (generate_loop source_file todo w))
     = tool_outcomes source_file todo w
  /\ invocations (events (generate_loop source_file todo w))
     = map (sips_cmd source_file) todo.
Proof.
  induction todo as [|spec rest IH]; intros w Ho.
  - repeat split.
  - rewrite generate_loop_cons in Ho |- *. rewrite tool_outcomes_cons.
    cbv zeta in Ho |- *.
    destruct (fst (subprocess_run _ w)) as [e|cp]; [discriminate|].
    cbn [forallb succeeded].
    destruct (returncode cp =? 0).
    + destruct (encodable (generated_line spec)); cbn in Ho; [|discriminate].
      destruct (IH _ Ho) as (Hall & Hres & Hinv).
      cbn [events results invocations andb map].
      rewrite Hall, Hres, Hinv. repeat split.
    + destruct (encodable (error_line spec cp)); discriminate.
Qed.

(** The loop answers [False] only right after a non-zero status, all the
    statuses before it having been 0. *)
Lemma generate_loop_false_inv (todo : list IconSpec) :
  forall w : World,
  outcome (generate_loop source_file todo w) = inr false ->
  exists (pre : list (OSError + CompletedProcess)) (cp : CompletedProcess),
    results (events (generate_loop source_file todo w))
      = (pre ++ [inr cp])%list
    /\ forallb succeeded pre = true
    /\ returncode cp <> 0.
Proof.
  induction todo as [|spec rest IH]; intros w Ho; [discriminate|].
  rewrite generate_loop_cons in Ho |- *. cbv zeta in Ho |- *.
  destruct (fst (subprocess_run _ w)) as [e|cp]; [discriminate|].
  destruct (returncode cp =? 0) eqn:Hz.
  - destruct (encodable (generated_line spec)); cbn in Ho; [|discriminate].
    destruct (IH _ Ho) as (pre & cp' & Hres & Hpre & Hcode).
    exists (inr cp :: pre), cp'. cbn [events results]. rewrite Hres.
    split; [reflexivity|]. split; [|exact Hcode].
    cbn [forallb succeeded]. rewrite Hz, Hpre. reflexivity.
  - destruct (encodable (error_line spec cp)); [|discriminate].
    exists [], cp. split; [reflexivity|]. split; [reflexivity|].
    apply Z.eqb_neq. exact Hz.
Qed.



(** No more invocations than entries, and a line for each invocation that
    ran to its end, the last one excepted when things went wrong. *)
Lemma generate_loop_counts (todo : list IconSpec) :
  forall w : World,
  let evs := events (generate_loop source_file todo w) in
  (length (invocations evs) <= length todo)%nat
  /\ (length (stdout_lines evs)
      <= length (filter completed (results evs)))%nat
  /\ (length (filter completed (results evs))
      <= S (length (stdout_lines evs)))%nat.
Proof.
  induction todo as [|spec rest IH]; intros w.
  - cbn. lia.
  - cbv zeta. rewrite generate_loop_cons; cbv zeta.
    destruct (fst (subprocess_run _ w)) as [e|cp]; [cbn; lia|].
    destruct (returncode cp =? 0).
    + destruct (encodable (generated_line spec)); [|cbn; lia].
      destruct (IH (snd (subprocess_run (sips_cmd source_file spec) w)))
        as (Hi & Hl & Hu).
      cbn [events stdout_lines results invocations filter completed length].
      lia.
    + destruct (encodable (error_line spec cp)); cbn; lia.
Qed.

End LoopMore.

(** *** What the answer of [generate_icons] tells its caller *)

(** X1. [generate_icons] returns [True] only if the source existed and all
    four rows were handed to the tool, each call coming back with status 0. *)
Theorem generate_icons_true_only_if {P : Platform}
    (source_file : string) (w : World) :
  outcome (generate_icons source_file w) = inr true ->
  os_path_exists source_file w = true
  /\ invocations (events (generate_icons source_file w))
     = map (sips_cmd source_file) sizes
  /\ length (results (events (generate_icons source_file w))) = 4%nat
  /\ forallb succeeded (results (events (generate_icons source_file w))) = true.
Proof.
  rewrite generate_icons_eq.
  destruct (os_path_exists source_file w);
    [|destruct (encodable (not_found_line source_file)); discriminate].
  destruct (encodable (generating_line source_file)); [|discriminate].
  cbv zeta. cbn [outcome events invocations results]. intros Ho.
  destruct (generate_loop_true_inv source_file sizes w Ho) as (Hall & Hres & Hi).
  rewrite Hi, Hres. repeat split; try assumption.
  unfold sizes. rewrite !tool_outcomes_cons. reflexivity.
Qed.

Lemma generate_icons_true_only_if_witness :
  os_path_exists (Platform := Demo.platform []) "logo.png" Demo.disk = true
  /\ invocations (events (generate_icons (P := Demo.platform [])
                            "logo.png" Demo.disk))
     = map (sips_cmd "logo.png") sizes
  /\ length (results (events (generate_icons (P := Demo.platform [])
                                "logo.png" Demo.disk))) = 4%nat
  /\ forallb succeeded
       (results (events (generate_icons (P := Demo.platform [])
                           "logo.png" Demo.disk))) = true.
Proof.
  apply (generate_icons_true_only_if (P := Demo.platform [])
           "logo.png" Demo.disk).
  reflexivity.
Defined.

(** X2. [generate_icons] returns [False] only in two ways: the source did not
    exist and the tool was never called, or the source existed and the last
    call of the run came back with a non-zero status after status 0 from all
    the calls before it. *)
Theorem generate_icons_false_only_if {P : Platform}
    (source_file : string) (w : World) :
  outcome (generate_icons source_file w) = inr false ->
  (os_path_exists source_file w = false
   /\ invocations (events (generate_icons source_file w)) = [])
  \/ (os_path_exists source_file w = true
      /\ exists (pre : list (OSError + CompletedProcess))
                (cp : CompletedProcess),
           results (events (generate_icons source_file w))
             = (pre ++ [inr cp])%list
           /\ forallb succeeded pre = true
           /\ returncode cp <> 0).
Proof.
  rewrite generate_icons_eq.
  destruct (os_path_exists source_file w).
  - destruct (encodable (generating_line source_file)); [|discriminate].
    cbv zeta. cbn [outcome events results]. intros Ho.
    right. split; [reflexivity|].
    exact (generate_loop_false_inv source_file sizes w Ho).
  - intros _. left. split; [reflexivity|].
    destruct (encodable (not_found_line source_file)); reflexivity.
Qed.

Lemma generate_icons_false_only_if_witness :
  (os_path_exists (Platform := Demo.platform ["128x128.png"])
     "logo.png" Demo.disk = false
   /\ invocations (events (generate_icons (P := Demo.platform ["128x128.png"])
                             "logo.png" Demo.disk)) = [])
  \/ (os_path_exists (Platform := Demo.platform ["128x128.png"])
        "logo.png" Demo.disk = true
      /\ exists (pre : list (OSError + CompletedProcess))
                (cp : CompletedProcess),
           results (events (generate_icons (P := Demo.platform ["128x128.png"])
                              "logo.png" Demo.disk))
             = (pre ++ [inr cp])%list
           /\ forallb succeeded pre = true
           /\ returncode cp <> 0).
Proof.
  apply (generate_icons_false_only_if (P := Demo.platform ["128x128.png"])
           "logo.png" Demo.disk).
  reflexivity.
Defined.









(** *** Invariants of every run *)



(** X8. In every run of [generate_icons], whatever the filesystem, the tool
    and standard output do: at most four invocations are made, and the
    number of lines printed is the number of invocations that ran to their
    end, or one more. *)
Theorem generate_icons_counts {P : Platform} (source_file : string) (w : World) :
  let evs := events (generate_icons source_file w) in
  (length (invocations evs) <= 4)%nat
  /\ (length (stdout_lines evs)
      <= S (length (filter completed (results evs))))%nat
  /\ (length (filter completed (results evs))
      <= length (stdout_lines evs))%nat.
Proof.
  cbv zeta. rewrite generate_icons_eq.
  destruct (os_path_exists source_file w).
  - destruct (encodable (generating_line source_file)); [|cbn; lia].
    cbv zeta. cbn [events invocations stdout_lines results length].
    destruct (generate_loop_counts source_file sizes w) as (Hi & Hl & Hu).
    cbn [length sizes] in Hi. lia.
  - destruct (encodable (not_found_line source_file)); cbn; lia.
Qed.


(** X10. With one positional argument the script hands exactly that string
    to [generate_icons]: it is the one path probed and the source of every
    invocation, and the script itself adds no invocation and no change to
    the world beyond those of [generate_icons]. *)
Theorem main_passes_argument {P : Platform}
    (prog source_file : string) (w : World) :
  let r := main [prog; source_file] w in
  let g := generate_icons source_file w in
  probes (events r) = [source_file]
  /\ Forall (fun cmd => source_arg cmd = source_file) (invocations (events r))
  /\ invocations (events r) = invocations (events g)
  /\ final r = final g.
Proof.
  cbv zeta.
  pose proof (generate_icons_probes source_file w) as Hp.
  assert (Hs : Forall (fun cmd => source_arg cmd = source_file)
                 (invocations (events (generate_icons source_file w)))).
  { destruct (generate_icons_prefix source_file w) as [n ->].
    apply Forall_forall. intros cmd Hin.
    apply in_map_iff in Hin as (spec & <- & _).
    apply source_arg_sips_cmd. }
  rewrite main_one_argument; cbv zeta.
  destruct (outcome (generate_icons source_file w)) as [e|[|]];
    cbn [events final]; rewrite ?probes_app, ?invocations_app, ?Hp;
    cbn [probes invocations]; rewrite ?app_nil_r; repeat split; exact Hs.
Qed.
